(** * openwebui-importer: the conversion web front-end and its launcher

    A shallow embedding of [webserver/server.py] (the request handler
    [ConvertHandler], methods [do_GET] and [do_POST]) and of
    [start_web_server.py] (the launcher, [check_dependencies] and [main]),
    and the properties of their request handling, clean-up and start-up
    checks.

    The handlers are glue around library calls, so the embedding is a small
    state-and-exception monad over a file system and a log of the calls the
    program makes to the outside world (responses, subprocess runs, prints).
    Library behaviour that the program cannot decide on its own (what the
    JSON parser accepts, what a spawned process does, how an archive is
    serialised) is a field of the environment record [env].

    What is modelled of the libraries, and what is not:
    - a response is the sequence of calls the handler makes on the request
      handler object ([send_error], [send_response], [send_header],
      [end_headers], [wfile.write]); how [http.server] turns a call into
      bytes on the wire, and the request log lines it prints through
      [log_message], are not modelled;
    - the multipart body is given by the fields that [cgi.FieldStorage]
      yields; a body that the parser itself rejects is not modelled;
    - the file system is a finite map from paths to directories and files;
      there are no permissions, no links and no normalisation of paths, and
      an operation fails only for the reasons written out below;
    - the timer thread that opens the browser ([open_browser]) and the
      server's start-up code ([run_server]) are outside the properties and
      are not modelled. *)

From Stdlib Require Import ZArith NArith Ascii String List Lia.
From Stdlib.Strings Require Import Byte.
From stdpp Require Import base option list strings gmap pretty.

Local Open Scope string_scope.
Local Open Scope list_scope.
Local Open Scope Z_scope.

(** ** Python values used by the two modules *)

(** [a or b] on strings: the empty string is falsy. *)
Definition str_or (a b : string) : string :=
  match a with EmptyString => b | _ => a end.

(** [s.startswith(p)]. *)
Definition startswith (s p : string) : bool := String.prefix p s.

(** [sep.join(l)]. *)
Definition join (sep : string) (l : list string) : string := String.concat sep l.

(** ** Exceptions *)

Inductive exn_kind :=
| AttributeError
| KeyError
| ValueError
| UnicodeDecodeError
| JSONDecodeError
| FileNotFoundError
| IsADirectoryError
| NotADirectoryError
| PermissionError
| OSError
| TimeoutExpired
| CalledProcessError
| KeyboardInterrupt
| RuntimeError.

Record exn := Exc { kind : exn_kind; msg : string }.

(** [except Exception] catches everything but the interrupt. *)
Definition is_Exception (e : exn) : bool :=
  match kind e with KeyboardInterrupt => false | _ => true end.

(** [isinstance(e, K)] for the classes the handlers name; [FileNotFoundError]
    has no subclasses among the kinds above, and the decode errors are
    siblings under [ValueError]. *)
Definition kind_eqb (a b : exn_kind) : bool :=
  match a, b with
  | AttributeError, AttributeError
  | KeyError, KeyError
  | ValueError, ValueError
  | UnicodeDecodeError, UnicodeDecodeError
  | JSONDecodeError, JSONDecodeError
  | FileNotFoundError, FileNotFoundError
  | IsADirectoryError, IsADirectoryError
  | NotADirectoryError, NotADirectoryError
  | PermissionError, PermissionError
  | OSError, OSError
  | TimeoutExpired, TimeoutExpired
  | CalledProcessError, CalledProcessError
  | KeyboardInterrupt, KeyboardInterrupt
  | RuntimeError, RuntimeError => true
  | _, _ => false
  end.

Definition isinstance (e : exn) (k : exn_kind) : bool := kind_eqb (kind e) k.

(** ** Paths and the file system *)

Definition path := list string.

(** Splitting a file name at its separators; the pieces of ["a/b"] are
    ["a"] and ["b"]. *)
Fixpoint split_slash (s : string) : list string :=
  match s with
  | EmptyString => [EmptyString]
  | String c s' =>
      if Ascii.eqb c "/" then EmptyString :: split_slash s'
      else match split_slash s' with
           | h :: t => String c h :: t
           | [] => [String c EmptyString]
           end
  end.

(** [os.path.join(dir, name)] for a relative [name].  Paths are kept as
    lists of components and are not normalised. *)
Definition path_join (dir : path) (name : string) : path := dir ++ split_slash name.


(** The text of an absolute path. *)
Definition path_str (p : path) : string := "/" +:+ join "/" p.

Definition dirname (p : path) : path := removelast p.

Definition bytes := list byte.

Inductive node :=
| Dir
| File (content : bytes).

Definition is_dir (o : option node) : bool :=
  match o with Some Dir => true | _ => false end.

Definition under (d p : path) : Prop := d `prefix_of` p.

Definition rmtree (d : path) (fs : gmap path node) : gmap path node :=
  filter (λ kv, ¬ under d kv.1) fs.

(** [os.path.relpath(p, d)] for [p] below [d]. *)
Definition relpath (p d : path) : string := join "/" (drop (length d) p).

(** The regular files found by [os.walk(d)], with their archive names. *)
Definition walk_files (d : path) (fs : gmap path node) : list (string * bytes) :=
  omap (λ kv, match kv.2 with
              | File b =>
                  if bool_decide (under d kv.1 ∧ kv.1 ≠ d)
                  then Some (relpath kv.1 d, b) else None
              | Dir => None
              end) (map_to_list fs).

(** ** Text files

    A file opened with [encoding='utf-8'] is decoded strictly; decoded text
    is kept as the bytes of its UTF-8 form, so [encode_utf8] is the
    identity on it. *)

Definition in_range (lo hi : N) (b : byte) : bool :=
  (lo <=? Byte.to_N b)%N && (Byte.to_N b <=? hi)%N.

Fixpoint utf8_valid (l : bytes) : bool :=
  match l with
  | [] => true
  | b0 :: l1 =>
      if in_range 0 127 b0 then utf8_valid l1
      else if in_range 194 223 b0 then
        match l1 with
        | b1 :: l2 => in_range 128 191 b1 && utf8_valid l2
        | _ => false
        end
      else if in_range 224 239 b0 then
        match l1 with
        | b1 :: b2 :: l3 =>
            (if in_range 224 224 b0 then in_range 160 191 b1
             else if in_range 237 237 b0 then in_range 128 159 b1
             else in_range 128 191 b1)
            && in_range 128 191 b2 && utf8_valid l3
        | _ => false
        end
      else if in_range 240 244 b0 then
        match l1 with
        | b1 :: b2 :: b3 :: l4 =>
            (if in_range 240 240 b0 then in_range 144 191 b1
             else if in_range 244 244 b0 then in_range 128 143 b1
             else in_range 128 191 b1)
            && in_range 128 191 b2 && in_range 128 191 b3 && utf8_valid l4
        | _ => false
        end
      else false
  end.

(** Text mode reads with universal newlines: CR LF and a lone CR become LF. *)
Fixpoint universal_newlines (l : bytes) : bytes :=
  match l with
  | [] => []
  | b :: l' =>
      if in_range 13 13 b then
        x0a :: match l' with
               | b' :: l'' =>
                   if in_range 10 10 b' then universal_newlines l''
                   else universal_newlines l'
               | [] => []
               end
      else b :: universal_newlines l'
  end.

Definition encode_utf8 (t : bytes) : bytes := t.

(** ** The outside world *)

Inductive event :=
| EvPrint (s : string)
| EvTraceback (e : exn)
| EvTempDir (d : path)
| EvRun (cmd : list string)
| EvZip (p : path) (entries : list (string * bytes))
| EvTimer (delay : Z) (url : string)
| EvSendError (code : Z) (message : string)
| EvSendResponse (code : Z)
| EvSendHeader (keyword value : string)
| EvEndHeaders
| EvWrite (body : bytes).

Record state := State { fs : gmap path node; log : list event }.

(** What a spawned program does: how long it runs, what it returns and
    prints, and the file system it leaves behind. *)
Record process := Process {
  runtime : N;
  returncode : Z;
  stdout : string;
  stderr : string;
  fs_after : gmap path node
}.

Record env := Env {
  cwd : path;                                   (* os.getcwd() *)
  tmp_name : path;                              (* the name TemporaryDirectory picks *)
  utf8_error : bytes → string;                  (* the text of the UnicodeDecodeError *)
  json_loads : bytes → option string;           (* None: parsed; Some d: JSONDecodeError d *)
  spawn : list string → gmap path node → exn + process;
  zip_bytes : list (string * bytes) → bytes;    (* the archive file for these members *)
  executable : string;                          (* sys.executable *)
  int_of_str : string → option Z                (* int(s); None: ValueError *)
}.

(** ** Control flow: values, [return], exceptions *)

Inductive res (R A : Type) :=
| Val (a : A)
| Ret (r : R)
| Raise (e : exn).
Arguments Val {R A} a.
Arguments Ret {R A} r.
Arguments Raise {R A} e.

Definition M (R A : Type) : Type := state → res R A * state.

Definition ret {R A : Type} (a : A) : M R A := λ s, (Val a, s).

Definition bind {R A B : Type} (m : M R A) (k : A → M R B) : M R B :=
  λ s, match m s with
       | (Val a, s') => k a s'
       | (Ret r, s') => (Ret r, s')
       | (Raise e, s') => (Raise e, s')
       end.

#[global] Instance M_ret {R : Type} : MRet (M R) := λ A, ret.
#[global] Instance M_bind {R : Type} : MBind (M R) := λ A B k m, bind m k.

(** The [return] statement. *)
Definition return_ {R A : Type} (r : R) : M R A := λ s, (Ret r, s).

Definition raise {R A : Type} (e : exn) : M R A := λ s, (Raise e, s).

(** [if c: body] where the body may leave the function. *)
Definition when_ {R : Type} (c : bool) (body : M R unit) : M R unit :=
  if c then body else ret tt.

(** [try: m  except ...]; the handler answers [None] for an exception that
    no clause matches. *)
Definition try_except {R A : Type} (m : M R A) (h : exn → option (M R A)) : M R A :=
  λ s, match m s with
       | (Raise e, s') =>
           match h e with
           | Some k => k s'
           | None => (Raise e, s')
           end
       | r => r
       end.

(** The function boundary: falling off the end and [return] both return. *)
Definition call {R : Type} (m : M R R) (s : state) : (R + exn) * state :=
  match m s with
  | (Val r, s') => (inl r, s')
  | (Ret r, s') => (inl r, s')
  | (Raise e, s') => (inr e, s')
  end.

Definition emit {R : Type} (e : event) : M R unit :=
  λ s, (Val tt, State (fs s) (log s ++ [e])).

Definition get_fs {R : Type} : M R (gmap path node) := λ s, (Val (fs s), s).

Definition set_fs {R : Type} (f : gmap path node) : M R unit :=
  λ s, (Val tt, State f (log s)).

(** ** Library calls *)

Definition print {R : Type} (s : string) : M R unit := emit (EvPrint s).

Definition send_error {R : Type} (code : Z) (message : string) : M R unit :=
  emit (EvSendError code message).
Definition send_response {R : Type} (code : Z) : M R unit := emit (EvSendResponse code).
Definition send_header {R : Type} (k v : string) : M R unit := emit (EvSendHeader k v).
Definition end_headers {R : Type} : M R unit := emit EvEndHeaders.
Definition wfile_write {R : Type} (b : bytes) : M R unit := emit (EvWrite b).

Definition errno_msg (what : string) (p : path) : string :=
  what +:+ ": '" +:+ path_str p +:+ "'".

(** [os.path.exists(p)]. *)
Definition path_exists {R : Type} (p : path) : M R bool :=
  f ← get_fs; ret (bool_decide (is_Some (f !! p))).

(** [open(p, 'rb').read()]. *)
Definition read_bytes {R : Type} (p : path) : M R bytes :=
  f ← get_fs;
  match f !! p with
  | Some (File b) => ret b
  | Some Dir => raise (Exc IsADirectoryError (errno_msg "[Errno 21] Is a directory" p))
  | None => raise (Exc FileNotFoundError (errno_msg "[Errno 2] No such file or directory" p))
  end.

(** [open(p, 'r', encoding='utf-8').read()]. *)
Definition read_text {R : Type} (E : env) (p : path) : M R bytes :=
  b ← read_bytes p;
  if utf8_valid b then ret (universal_newlines b)
  else raise (Exc UnicodeDecodeError (utf8_error E b)).

(** [open(p, 'wb')] followed by [write(data)]: the directory of [p] must be
    there, and [p] must not be a directory. *)
Definition write_bytes {R : Type} (p : path) (data : bytes) : M R unit :=
  f ← get_fs;
  match f !! p with
  | Some Dir => raise (Exc IsADirectoryError (errno_msg "[Errno 21] Is a directory" p))
  | _ =>
      match f !! dirname p with
      | Some Dir => set_fs (<[p := File data]> f)
      | Some (File _) => raise (Exc NotADirectoryError (errno_msg "[Errno 20] Not a directory" p))
      | None => raise (Exc FileNotFoundError (errno_msg "[Errno 2] No such file or directory" p))
      end
  end.

(** [os.makedirs(p, exist_ok=True)] below an existing directory. *)
Definition makedirs {R : Type} (p : path) : M R unit :=
  f ← get_fs;
  match f !! p with
  | Some Dir => ret tt
  | Some (File _) => raise (Exc OSError (errno_msg "[Errno 17] File exists" p))
  | None => set_fs (<[p := Dir]> f)
  end.

(** [json.load] on a file opened as UTF-8 text. *)
Definition json_load {R : Type} (E : env) (p : path) : M R unit :=
  t ← read_text E p;
  match json_loads E t with
  | None => ret tt
  | Some detail => raise (Exc JSONDecodeError detail)
  end.

Record completed := Completed { c_returncode : Z; c_stdout : string; c_stderr : string }.

(** [subprocess.run(cmd, capture_output=True, text=True, timeout=t)]. *)
Definition subprocess_run {R : Type} (E : env) (cmd : list string) (timeout : option N)
  : M R completed :=
  emit (EvRun cmd);;
  f ← get_fs;
  match spawn E cmd f with
  | inl e => raise e
  | inr p =>
      set_fs (fs_after p);;
      match timeout with
      | Some t =>
          if (runtime p <=? t)%N
          then ret (Completed (returncode p) (stdout p) (stderr p))
          else raise (Exc TimeoutExpired "Command timed out")
      | None => ret (Completed (returncode p) (stdout p) (stderr p))
      end
  end.

(** [with tempfile.TemporaryDirectory() as d: body]: the directory is made,
    the body runs, and the tree is removed however the body ends. *)
Definition with_TemporaryDirectory {R A : Type} (E : env) (body : path → M R A) : M R A :=
  λ s,
    let d := tmp_name E in
    let '(r, s') := body d (State (<[d := Dir]> (fs s)) (log s ++ [EvTempDir d])) in
    (r, State (rmtree d (fs s')) (log s')).

(** ** Requests and multipart forms

    A request is given by what the server library hands to the handler: the
    path, the [Content-Type] header if there is one, and the fields the
    multipart parser yields, in order, names repeated or not. *)

Record field := Field {
  name : string;
  filename : option string;     (* None for a part without a file name *)
  value : string;               (* [.value] *)
  file : bytes                  (* [.file.read()] *)
}.

Record request := Request {
  rpath : string;
  content_type : option string;
  form : list field
}.

(** [key in form]. *)
Definition form_contains (fm : list field) (key : string) : bool :=
  existsb (λ f, String.eqb (name f) key) fm.

(** [form[key]] is the field, or the list of fields when the name occurs
    more than once. *)
Inductive item :=
| One (f : field)
| Many (l : list field).

Definition fields (key : string) (fm : list field) : list field :=
  List.filter (λ f, String.eqb (name f) key) fm.

Definition form_getitem {R : Type} (fm : list field) (key : string) : M R item :=
  match fields key fm with
  | [] => raise (Exc KeyError key)
  | [f] => ret (One f)
  | l => ret (Many l)
  end.

Definition no_attribute (ty attr : string) : exn :=
  Exc AttributeError ("'" +:+ ty +:+ "' object has no attribute '" +:+ attr +:+ "'").

Definition get_value {R : Type} (i : item) : M R string :=
  match i with
  | One f => ret (value f)
  | Many _ => raise (no_attribute "list" "value")
  end.

Definition get_filename {R : Type} (i : item) : M R (option string) :=
  match i with
  | One f => ret (filename f)
  | Many _ => raise (no_attribute "list" "filename")
  end.

Definition get_file {R : Type} (i : item) : M R bytes :=
  match i with
  | One f => ret (file f)
  | Many _ => raise (no_attribute "list" "file")
  end.

(** [not s] for an optional string: [None] and the empty string are falsy. *)
Definition falsy (o : option string) : bool :=
  match o with
  | None => true
  | Some s => String.eqb s EmptyString
  end.

(** [h.startswith(p)] on a header that may be [None]. *)
Definition header_startswith {R : Type} (h : option string) (p : string) : M R bool :=
  match h with
  | Some s => ret (startswith s p)
  | None => raise (no_attribute "NoneType" "startswith")
  end.

(** ** [webserver/server.py]: [ConvertHandler] *)

Definition index_html (E : env) : path := path_join (cwd E) "webserver/index.html".

Definition do_GET (E : env) (rq : request) : M unit unit :=
  if String.eqb (rpath rq) "/" || String.eqb (rpath rq) "/webserver/index.html"
     || String.eqb (rpath rq) "/"
  then
    try_except
      (content ← read_text E (index_html E);
       send_response 200;;
       send_header "Content-type" "text/html; charset=utf-8";;
       end_headers;;
       wfile_write (encode_utf8 content))
      (λ e, if isinstance e FileNotFoundError
            then Some (send_error 404 "index.html not found")
            else None)
  else send_error 404 "File not found".

Definition convert_cmd (user_id : string) (output_dir input_file : path) : list string :=
  ["uv"; "run"; "convert_chatgpt.py";
   "--userid"; user_id;
   "--output-dir"; path_str output_dir;
   path_str input_file].

Definition zip_name (user_id : string) : string :=
  "chatgpt_converted_" +:+ user_id +:+ ".zip".

(** The double quote character, as a string. *)
Definition dquote : string := String (Ascii.ascii_of_nat 34) EmptyString.

Definition content_disposition (user_id : string) : string :=
  "attachment; filename=" +:+ dquote +:+ "chatgpt_converted_" +:+ user_id
  +:+ ".zip" +:+ dquote.

(** [with zipfile.ZipFile(zip_path, 'w', ZIP_DEFLATED) as zipf:] with the
    loop over [os.walk(top)] that adds every file under its relative name. *)
Definition write_zip {R : Type} (E : env) (zip_path top : path) : M R unit :=
  write_bytes zip_path [];;
  f ← get_fs;
  let members := walk_files top f in
  write_bytes zip_path (zip_bytes E members);;
  emit (EvZip zip_path members).

Definition str_len (b : bytes) : string := pretty (Z.of_nat (length b)).

Definition do_POST (E : env) (rq : request) : M unit unit :=
  if String.eqb (rpath rq) "/convert" then
    try_except
      (multipart ← header_startswith (content_type rq) "multipart/form-data";
       when_ (negb multipart)
         (send_error 400 "Expected multipart/form-data";; return_ tt);;
       let fm := form rq in
       when_ (negb (form_contains fm "userId"))
         (send_error 400 "Missing userId field";; return_ tt);;
       uid_item ← form_getitem fm "userId";
       user_id ← get_value uid_item;
       when_ (negb (form_contains fm "chatFile"))
         (send_error 400 "Missing chatFile field";; return_ tt);;
       file_item ← form_getitem fm "chatFile";
       fname ← get_filename file_item;
       when_ (falsy fname)
         (send_error 400 "No file selected";; return_ tt);;
       with_TemporaryDirectory E (λ temp_dir,
         let input_file := path_join temp_dir "conversations.json" in
         data ← get_file file_item;
         write_bytes input_file data;;
         try_except (json_load E input_file)
           (λ e, if isinstance e JSONDecodeError
                 then Some (send_error 400 ("Invalid JSON file: " +:+ msg e);;
                            return_ tt)
                 else None);;
         let output_dir := path_join temp_dir "output" in
         makedirs output_dir;;
         try_except
           (result ← subprocess_run E (convert_cmd user_id output_dir input_file)
                       (Some 60%N);
            when_ (negb (c_returncode result =? 0))
              (let error_msg :=
                 str_or (c_stderr result) (str_or (c_stdout result) "Conversion failed") in
               send_error 500 ("Conversion error: " +:+ error_msg);;
               return_ tt))
           (λ e, if isinstance e TimeoutExpired
                 then Some (send_error 500 "Conversion timeout";; return_ tt)
                 else if isinstance e FileNotFoundError
                 then Some (send_error 500 "uv command not found. Please install uv.";;
                            return_ tt)
                 else None);;
         let chatgpt_output_dir := path_join output_dir "chatgpt" in
         present ← path_exists chatgpt_output_dir;
         when_ (negb present)
           (send_error 500 "No output files generated";; return_ tt);;
         let zip_path := path_join temp_dir (zip_name user_id) in
         write_zip E zip_path chatgpt_output_dir;;
         zip_content ← read_bytes zip_path;
         send_response 200;;
         send_header "Content-Type" "application/zip";;
         send_header "Content-Disposition" (content_disposition user_id);;
         send_header "Content-Length" (str_len zip_content);;
         end_headers;;
         wfile_write zip_content))
      (λ e, if is_Exception e
            then Some (print ("Error processing request: " +:+ msg e);;
                       emit (EvTraceback e);;
                       send_error 500 ("Internal server error: " +:+ msg e))
            else None)
  else send_error 404 "Endpoint not found".

(** One request on a file system [f]: the handler is called on an empty log. *)
Definition handle (h : M unit unit) (f : gmap path node) : (unit + exn) * state :=
  call h (State f []).

(** ** [start_web_server.py]: the launcher *)

Module Launcher.

Definition required_files : list string :=
  ["webserver/index.html"; "convert_chatgpt.py"; "webserver/server.py"].

(** [os.path.exists(file)] for a file name relative to the working directory. *)
Definition exists_rel (E : env) (f : gmap path node) (file : string) : bool :=
  bool_decide (is_Some (f !! path_join (cwd E) file)).

(** [subprocess.run(cmd, capture_output=True, check=True)]. *)
Definition run_checked {R : Type} (E : env) (cmd : list string) : M R completed :=
  c ← subprocess_run E cmd None;
  if c_returncode c =? 0 then ret c
  else raise (Exc CalledProcessError "Command returned non-zero exit status").

Definition missing (E : env) (f : gmap path node) : list string :=
  List.filter (λ file, negb (exists_rel E f file)) required_files.

Definition check_dependencies (E : env) : M bool bool :=
  f ← get_fs;
  let missing_files := missing E f in
  when_ (negb (bool_decide (missing_files = [])))
    (print ("Error: Missing required files: " +:+ join ", " missing_files);;
     return_ false);;
  try_except
    (run_checked E ["uv"; "--version"];; ret tt)
    (λ e, if isinstance e CalledProcessError || isinstance e FileNotFoundError
          then Some (print "Warning: 'uv' command not found. Make sure uv is installed and in your PATH.";;
                     print "You can install it with: pip install uv";;
                     return_ false)
          else None);;
  return_ true.

(** [open_browser(url, delay)], the function the timer runs.  The sleep is
    not modelled; [wopen] is [webbrowser.open], which answers whether a
    browser took the address, or raises. *)
Definition open_browser (wopen : string → exn + bool) (url : string) : M unit unit :=
  try_except
    (match wopen url with
     | inl e => raise e
     | inr _ => ret tt
     end;;
     print ("Opened browser at " +:+ url))
    (λ e, if is_Exception e
          then Some (print ("Could not open browser automatically: " +:+ msg e);;
                     print ("Please manually open " +:+ url +:+ " in your browser."))
          else None).

(** Calling a function of the same module: its result is a value here, its
    exception propagates. *)
Definition invoke {R A : Type} (m : M A A) : M R A :=
  λ s, match call m s with
       | (inl a, s') => (Val a, s')
       | (inr e, s') => (Raise e, s')
       end.

Definition replicate_str (n : nat) (s : string) : string := join EmptyString (replicate n s).

Definition server_cmd (E : env) (port : Z) : list string :=
  [executable E; "webserver/server.py"; "--port"; pretty port].

Definition main (E : env) (argv : list string) : M Z Z :=
  print "ChatGPT to Open-WebUI Converter Web Server";;
  print (replicate_str 45 "=");;
  ok ← invoke (check_dependencies E);
  when_ (negb ok)
    (print "
Please fix the above issues and try again.";;
     return_ 1);;
  port ← (match argv with
          | _ :: a1 :: _ =>
              match int_of_str E a1 with
              | Some n => ret n
              | None => print ("Invalid port number: " +:+ a1);; return_ 1
              end
          | _ => ret 3010
          end);
  let url := "http://localhost:" +:+ pretty port in
  emit (EvTimer 2 url);;
  print ("
Starting web server on port " +:+ pretty port +:+ "...");;
  print ("Access the converter at: " +:+ url);;
  print "Press Ctrl+C to stop the server
";;
  try_except
    (subprocess_run E (server_cmd E port) None;; ret tt)
    (λ e, if isinstance e KeyboardInterrupt
          then Some (print "
Server stopped by user.")
          else if is_Exception e
          then Some (print ("Error starting server: " +:+ msg e);; return_ 1)
          else None);;
  return_ 0.

(** [sys.exit(main())]: the exit status of the launcher process.  An
    exception that leaves [main] ends the interpreter with its traceback
    and a nonzero status. *)
Definition script (E : env) (argv : list string) (f : gmap path node) : Z * state :=
  match call (main E argv) (State f []) with
  | (inl code, s) => (code, s)
  | (inr e, s) =>
      (if isinstance e KeyboardInterrupt then 130 else 1,
       State (fs s) (log s ++ [EvTraceback e]))
  end.

End Launcher.

(** * What the properties are stated with *)

(** ** The names the conversion works with *)

Definition input_file (E : env) : path := path_join (tmp_name E) "conversations.json".
Definition output_dir (E : env) : path := path_join (tmp_name E) "output".
Definition chatgpt_dir (E : env) : path := path_join (output_dir E) "chatgpt".
Definition zip_path (E : env) (user_id : string) : path :=
  path_join (tmp_name E) (zip_name user_id).

(** A multipart request to [/convert]. *)
Definition multipart_post (rq : request) : Prop :=
  rpath rq = "/convert" ∧
  ∃ ct, content_type rq = Some ct ∧ startswith ct "multipart/form-data" = true.

(** An upload with both fields, each given once, the file with a name. *)
Definition upload (rq : request) (u c : field) : Prop :=
  multipart_post rq ∧
  fields "userId" (form rq) = [u] ∧
  fields "chatFile" (form rq) = [c] ∧
  falsy (filename c) = false.

(** An upload that passes validation: both fields, a file name, and bytes
    that decode and parse. *)
Definition valid_upload (E : env) (rq : request) (u c : field) : Prop :=
  upload rq u c ∧
  utf8_valid (file c) = true ∧
  json_loads E (universal_newlines (file c)) = None.

Definition fresh_dir (d : path) (f : gmap path node) : Prop :=
  ∀ p, under d p → f !! p = None.

(** The file system the converter is started on: the new directory, the
    upload and the empty output directory added to [f]. *)
Definition staged (E : env) (f : gmap path node) (data : bytes) : gmap path node :=
  <[output_dir E := Dir]> (<[input_file E := File data]> (<[tmp_name E := Dir]> f)).

(** The converter as the handler starts it for this upload. *)
Definition converter (E : env) (f : gmap path node) (u c : field) : exn + process :=
  spawn E (convert_cmd (value u) (output_dir E) (input_file E)) (staged E f (file c)).

(** The response calls in a log, and the commands run. *)
Definition is_response (e : event) : bool :=
  match e with
  | EvSendError _ _ | EvSendResponse _ | EvSendHeader _ _ | EvEndHeaders | EvWrite _ => true
  | _ => false
  end.

Definition responses (l : list event) : list event := List.filter is_response l.

Definition runs (l : list event) : list (list string) :=
  omap (λ e, match e with EvRun cmd => Some cmd | _ => None end) l.


(** A computation keeps a property of the file system. *)
Definition keeps {R A : Type} (P : gmap path node → Prop) (m : M R A) : Prop :=
  ∀ s, P (fs s) → P (fs (m s).2).

(** Two file systems agree outside the directory [d]. *)
Definition same_outside (d : path) (f g : gmap path node) : Prop :=
  ∀ q, ¬ under d q → g !! q = f !! q.

(** The port the launcher takes from its command line. *)
Definition port_arg (E : env) (argv : list string) : option Z :=
  match argv with
  | _ :: a1 :: _ => int_of_str E a1
  | _ => Some 3010
  end.

(** The version check of the build tool succeeds. *)
Definition uv_invocable (E : env) (f : gmap path node) : Prop :=
  match spawn E ["uv"; "--version"] f with
  | inr p => returncode p = 0
  | inl _ => False
  end.

Definition uv_warning : string :=
  "Warning: 'uv' command not found. Make sure uv is installed and in your PATH.".

(** ** Concrete runs *)

Definition demo_tmp : path := ["tmp"; "tmpk3x0q"].

Definition demo_fs : gmap path node :=
  <[ ["srv"; "app"; "webserver"; "server.py"] := File [x23] ]>
  (<[ ["srv"; "app"; "webserver"; "index.html"] := File [x3c; x70; x3e; x0d; x0a] ]>
  (<[ ["srv"; "app"; "webserver"] := Dir ]>
  (<[ ["srv"; "app"; "convert_chatgpt.py"] := File [x23] ]>
  (<[ ["srv"; "app"] := Dir ]>
  (<[ ["srv"] := Dir ]>
  (<[ ["tmp"] := Dir ]> ∅)))))).

(** The decode error for bytes that start with 0xFF, as all undecodable
    inputs below do. *)
Definition demo_utf8_error (b : bytes) : string :=
  "'utf-8' codec can't decode byte 0xff in position 0: invalid start byte".

(** A stand-in for the JSON parser on the few texts used below. *)
Definition demo_json (t : bytes) : option string :=
  match t with
  | [x5b; x5d] => None
  | [x7b; x7d] => None
  | [x5b] => Some "Expecting value: line 1 column 2 (char 1)"
  | _ => Some "Expecting value: line 1 column 1 (char 0)"
  end.

(** A converter that writes two files below [chatgpt] and exits 0. *)
Definition convert_ok (f : gmap path node) : exn + process :=
  inr (Process 3 0 "Converted 2 conversations" EmptyString
         (<[ demo_tmp ++ ["output"; "chatgpt"; "2024"; "b.json"] := File [x7b; x7d] ]>
         (<[ demo_tmp ++ ["output"; "chatgpt"; "2024"] := Dir ]>
         (<[ demo_tmp ++ ["output"; "chatgpt"; "a.json"] := File [x5b; x5d] ]>
         (<[ demo_tmp ++ ["output"; "chatgpt"] := Dir ]> f))))).

(** A converter that also makes the directory [chatgpt_converted_a] next
    to its output directory. *)
Definition convert_ok_slash (f : gmap path node) : exn + process :=
  inr (Process 3 0 EmptyString EmptyString
         (<[ demo_tmp ++ ["chatgpt_converted_a"] := Dir ]>
         (<[ demo_tmp ++ ["output"; "chatgpt"] := Dir ]> f))).


Definition convert_hangs (f : gmap path node) : exn + process :=
  inr (Process 3600 0 "still working" EmptyString f).

Definition uv_present (f : gmap path node) : exn + process :=
  inr (Process 1 0 "uv 0.4.18" EmptyString f).

Definition uv_absent (f : gmap path node) : exn + process :=
  inl (Exc FileNotFoundError "[Errno 2] No such file or directory: 'uv'").

(** The server runs until it is interrupted. *)
Definition demo_spawn (uv conv : gmap path node → exn + process)
    (cmd : list string) (f : gmap path node) : exn + process :=
  match cmd with
  | ["uv"; "--version"] => uv f
  | "uv" :: "run" :: _ => conv f
  | _ => inl (Exc KeyboardInterrupt EmptyString)
  end.

(** Members one after the other, name and content each closed by a zero
    byte: a stand-in for the archive format. *)
Definition demo_zip (l : list (string * bytes)) : bytes :=
  flat_map (λ e, list_byte_of_string e.1 ++ [x00] ++ e.2 ++ [x00]) l.

Definition demo_env (uv conv : gmap path node → exn + process) : env :=
  Env ["srv"; "app"] demo_tmp demo_utf8_error demo_json (demo_spawn uv conv) demo_zip
      "python3"
      (λ _, None).

Definition multipart : option string := Some "multipart/form-data; boundary=----x".

Definition user_field (v : string) : field := Field "userId" None v [].
Definition file_field (b : bytes) : field :=
  Field "chatFile" (Some "conversations.json") EmptyString b.

Definition demo_post (user_id : string) (b : bytes) : request :=
  Request "/convert" multipart [user_field user_id; file_field b].

(** What the launcher has logged when it starts the server on [port]. *)
Definition launch_log (E : env) (port : Z) : list event :=
  [EvPrint "ChatGPT to Open-WebUI Converter Web Server";
   EvPrint "=============================================";
   EvRun ["uv"; "--version"];
   EvTimer 2 ("http://localhost:" +:+ pretty port);
   EvPrint ("
Starting web server on port " +:+ pretty port +:+ "...");
   EvPrint ("Access the converter at: http://localhost:" +:+ pretty port);
   EvPrint "Press Ctrl+C to stop the server
";
   EvRun [executable E; "webserver/server.py"; "--port"; pretty port]].

(** A converter that may not be run. *)
Definition convert_denied (f : gmap path node) : exn + process :=
  inl (Exc PermissionError "[Errno 13] Permission denied: 'uv'").


(** An environment in which every command behaves as [conv]. *)
Definition plain_env (conv : gmap path node → exn + process) : env :=
  Env ["srv"; "app"] demo_tmp demo_utf8_error demo_json (λ _, conv) demo_zip "python3"
      (λ _, None).

(** * Properties *)

(** ** Running the handlers symbolically *)

Arguments bind {R A B} m k s /.
Arguments ret {R A} a s /.
Arguments M_bind {R} A B k m s /.
Arguments M_ret {R} A a s /.
Arguments return_ {R A} r s /.
Arguments raise {R A} e s /.
Arguments when_ {R} !c body /.
Arguments try_except {R A} m h s /.
Arguments emit {R} e s /.
Arguments get_fs {R} s /.
Arguments set_fs {R} f s /.
Arguments with_TemporaryDirectory {R A} E body s /.

Arguments write_bytes : simpl never.
Arguments read_bytes : simpl never.
Arguments read_text : simpl never.
Arguments json_load : simpl never.
Arguments makedirs : simpl never.
Arguments subprocess_run : simpl never.
Arguments write_zip : simpl never.

Ltac run :=
  unfold handle, call, mbind, mret;
  cbn -[String.append pretty walk_files rmtree utf8_valid universal_newlines
        startswith falsy Launcher.missing join zip_name content_disposition
        str_or convert_cmd].

(** Facts about a log that is known event by event. *)
Ltac in_log :=
  repeat first [apply list_elem_of_here | apply list_elem_of_further].

Ltac inv_log H :=
  repeat (apply elem_of_cons in H as [H | H];
          [try discriminate H; try (injection H as ?; subst) | ]);
  try (apply elem_of_nil in H; contradiction).

Ltac log_facts :=
  repeat match goal with
         | |- _ ∧ _ => split
         | |- ∀ _, _ => intro
         | |- _ ∉ _ => let H := fresh "Hin" in intros H; inv_log H
         | H : _ ∈ _ :: _ |- _ => inv_log H
         | |- _ ∈ _ :: _ => solve [in_log]
         | |- _ ∈ _ :: _ ∨ _ => left; solve [in_log]
         | |- @eq Z _ _ → False => discriminate
         | |- not (@eq Z _ _) => discriminate
         | |- ?x = ?x => reflexivity
         end.

Lemma contains_of_fields key fm u :
  fields key fm = [u] → form_contains fm key = true.
Proof.
  intros H. unfold form_contains. apply existsb_exists. exists u.
  assert (Hin : In u (fields key fm)) by (rewrite H; left; reflexivity).
  unfold fields in Hin. apply filter_In in Hin. exact Hin.
Qed.

Lemma fields_nil_of_contains key fm :
  form_contains fm key = false → fields key fm = [].
Proof.
  unfold form_contains, fields. induction fm as [|x fm IH]; cbn; [reflexivity|].
  intros H. apply orb_false_iff in H as [H1 H2]. rewrite H1. auto.
Qed.

(** ** C7: requests that are not multipart *)

(** X19.  A POST to /convert whose Content-Type header is there and does
    not start with [multipart/form-data] is answered 400, and that is all
    the handler does. *)
Lemma non_multipart_rejected E rq f ct :
  rpath rq = "/convert" →
  content_type rq = Some ct →
  startswith ct "multipart/form-data" = false →
  handle (do_POST E rq) f
  = (inl tt, State f [EvSendError 400 "Expected multipart/form-data"]).
Proof.
  intros Hp Hc Hs. unfold do_POST. rewrite Hp, Hc. run. rewrite Hs. run.
  reflexivity.
Qed.

(** C7 (failing input).  A POST to /convert that carries no Content-Type
    header is not answered with a 400-class status: the header is [None],
    [startswith] raises, and the catch-all clause answers 500 with the text
    of the attribute error. *)
Theorem missing_content_type_is_500 E rq f :
  rpath rq = "/convert" →
  content_type rq = None →
  handle (do_POST E rq) f
  = (inl tt,
     State f
       [EvPrint "Error processing request: 'NoneType' object has no attribute 'startswith'";
        EvTraceback (no_attribute "NoneType" "startswith");
        EvSendError 500
          "Internal server error: 'NoneType' object has no attribute 'startswith'"]).
Proof.
  intros Hp Hc. unfold do_POST. rewrite Hp, Hc. run. reflexivity.
Qed.

(** ** C4: missing form fields *)


(** ** C8: the form page *)


(** Any other path is not found. *)
Lemma do_GET_other E rq f :
  rpath rq ≠ "/" → rpath rq ≠ "/webserver/index.html" →
  handle (do_GET E rq) f = (inl tt, State f [EvSendError 404 "File not found"]).
Proof.
  intros H1 H2. unfold do_GET.
  apply String.eqb_neq in H1, H2. rewrite H1, H2. run. reflexivity.
Qed.

(** ** C9: the launcher's checks *)

(** C9.  When a required file is missing or the version check of [uv] does
    not succeed, the launcher exits with a nonzero status, no timer for the
    browser is started, the only subprocess run (if any) is the version
    check itself, so the server is not started, and the reason is printed:
    the list of missing files, or the warning about [uv], or the traceback
    of the exception the check ended with. *)
Theorem launcher_refuses E argv f :
  Launcher.missing E f ≠ [] ∨ ¬ uv_invocable E f →
  let r := Launcher.script E argv f in
  r.1 ≠ 0 ∧
  (∀ d u, EvTimer d u ∉ log r.2) ∧
  (∀ cmd, EvRun cmd ∈ log r.2 → cmd = ["uv"; "--version"]) ∧
  (∀ port, EvRun (Launcher.server_cmd E port) ∉ log r.2) ∧
  (Launcher.missing E f ≠ [] →
   EvPrint ("Error: Missing required files: " +:+ join ", " (Launcher.missing E f))
     ∈ log r.2) ∧
  (Launcher.missing E f = [] →
   EvPrint uv_warning ∈ log r.2 ∨
   ∃ e, spawn E ["uv"; "--version"] f = inl e ∧ EvTraceback e ∈ log r.2).
Proof.
  intros H. unfold Launcher.script, Launcher.main, Launcher.invoke,
    Launcher.check_dependencies, Launcher.run_checked, subprocess_run.
  run.
  destruct (decide (Launcher.missing E f = [])) as [Hm | Hm].
  - destruct H as [H | H]; [congruence|].
    rewrite bool_decide_eq_true_2 by exact Hm. run. unfold uv_invocable in H.
    destruct (spawn E ["uv"; "--version"] f) as [e | p] eqn:Hsp; run.
    + destruct e as [k m].
      destruct k; run; log_facts; try congruence;
        right; eexists; (split; [reflexivity | in_log]).
    + destruct (returncode p =? 0) eqn:Hrc; [apply Z.eqb_eq in Hrc; tauto|].
      run. log_facts; congruence.
  - rewrite bool_decide_eq_false_2 by exact Hm. run. log_facts; congruence.
Qed.

(** ** Library calls, run on a state *)

Section Runs.
Context {R : Type}.

Lemma read_bytes_file p b s :
  fs s !! p = Some (File b) → @read_bytes R p s = (Val b, s).
Proof. intros H. unfold read_bytes. run. rewrite H. reflexivity. Qed.

Lemma read_text_ok E p b s :
  fs s !! p = Some (File b) → utf8_valid b = true →
  @read_text R E p s = (Val (universal_newlines b), s).
Proof.
  intros H Hv. unfold read_text. run. rewrite (read_bytes_file _ _ _ H), Hv.
  reflexivity.
Qed.

Lemma read_text_undecodable E p b s :
  fs s !! p = Some (File b) → utf8_valid b = false →
  @read_text R E p s = (Raise (Exc UnicodeDecodeError (utf8_error E b)), s).
Proof.
  intros H Hv. unfold read_text. run. rewrite (read_bytes_file _ _ _ H), Hv.
  reflexivity.
Qed.

Lemma write_bytes_ok p data s :
  is_dir (fs s !! p) = false → fs s !! dirname p = Some Dir →
  @write_bytes R p data s = (Val tt, State (<[p := File data]> (fs s)) (log s)).
Proof.
  intros H1 H2. unfold write_bytes. run. rewrite H2.
  destruct (fs s !! p) as [[|?]|]; try discriminate; reflexivity.
Qed.

Lemma write_bytes_no_dir p data s :
  is_dir (fs s !! p) = false → fs s !! dirname p = None →
  @write_bytes R p data s
  = (Raise (Exc FileNotFoundError
              (errno_msg "[Errno 2] No such file or directory" p)), s).
Proof.
  intros H1 H2. unfold write_bytes. run. rewrite H2.
  destruct (fs s !! p) as [[|?]|]; try discriminate; reflexivity.
Qed.

Lemma makedirs_new p s :
  fs s !! p = None →
  @makedirs R p s = (Val tt, State (<[p := Dir]> (fs s)) (log s)).
Proof. intros H. unfold makedirs. run. rewrite H. reflexivity. Qed.

Lemma json_load_ok E p b s :
  fs s !! p = Some (File b) → utf8_valid b = true →
  json_loads E (universal_newlines b) = None →
  @json_load R E p s = (Val tt, s).
Proof.
  intros H Hv Hj. unfold json_load. run. rewrite (read_text_ok _ _ _ _ H Hv), Hj.
  reflexivity.
Qed.

Lemma json_load_error E p b s detail :
  fs s !! p = Some (File b) → utf8_valid b = true →
  json_loads E (universal_newlines b) = Some detail →
  @json_load R E p s = (Raise (Exc JSONDecodeError detail), s).
Proof.
  intros H Hv Hj. unfold json_load. run. rewrite (read_text_ok _ _ _ _ H Hv), Hj.
  reflexivity.
Qed.

Lemma json_load_undecodable E p b s :
  fs s !! p = Some (File b) → utf8_valid b = false →
  @json_load R E p s = (Raise (Exc UnicodeDecodeError (utf8_error E b)), s).
Proof.
  intros H Hv. unfold json_load. run. rewrite (read_text_undecodable _ _ _ _ H Hv).
  reflexivity.
Qed.

Lemma subprocess_run_exited E cmd t p s :
  spawn E cmd (fs s) = inr p → (runtime p <=? t)%N = true →
  @subprocess_run R E cmd (Some t) s
  = (Val (Completed (returncode p) (stdout p) (stderr p)),
     State (fs_after p) (log s ++ [EvRun cmd])).
Proof. intros H Ht. unfold subprocess_run. run. rewrite H. run. rewrite Ht. reflexivity. Qed.

Lemma subprocess_run_timeout E cmd t p s :
  spawn E cmd (fs s) = inr p → (runtime p <=? t)%N = false →
  @subprocess_run R E cmd (Some t) s
  = (Raise (Exc TimeoutExpired "Command timed out"),
     State (fs_after p) (log s ++ [EvRun cmd])).
Proof. intros H Ht. unfold subprocess_run. run. rewrite H. run. rewrite Ht. reflexivity. Qed.

Lemma subprocess_run_raises E cmd t e s :
  spawn E cmd (fs s) = inl e →
  @subprocess_run R E cmd t s = (Raise e, State (fs s) (log s ++ [EvRun cmd])).
Proof. intros H. unfold subprocess_run. run. rewrite H. reflexivity. Qed.
End Runs.

(** ** Paths below the temporary directory *)

Lemma dirname_snoc (d : path) (a : string) : dirname (d ++ [a]) = d.
Proof. apply removelast_last. Qed.

Lemma snoc_ne (d : path) (a : string) : d ++ [a] ≠ d.
Proof.
  intros H. apply (f_equal length) in H. rewrite length_app in H. cbn in H. lia.
Qed.

Lemma under_app (d l : path) : under d (d ++ l).
Proof. exists l. reflexivity. Qed.

Ltac enter Hup :=
  let Hp := fresh "Hp" in let ct := fresh "ct" in let Hct := fresh "Hct" in
  let Hsw := fresh "Hsw" in let Hu := fresh "Hu" in let Hc := fresh "Hc" in
  let Hfn := fresh "Hfn" in
  destruct Hup as ((Hp & ct & Hct & Hsw) & Hu & Hc & Hfn);
  unfold do_POST; rewrite Hp, Hct; run; rewrite Hsw; run;
  rewrite (contains_of_fields _ _ _ Hu); run;
  unfold form_getitem; rewrite Hu; run;
  rewrite (contains_of_fields _ _ _ Hc); run;
  rewrite Hc; run; rewrite Hfn; run.

(** Saving the upload into the new directory. *)
Lemma save_upload {R : Type} E f data l :
  fresh_dir (tmp_name E) f →
  @write_bytes R (tmp_name E ++ ["conversations.json"]) data
    (State (<[tmp_name E := Dir]> f) l)
  = (Val tt, State (<[input_file E := File data]> (<[tmp_name E := Dir]> f)) l).
Proof.
  intros Hf. rewrite write_bytes_ok; cbn [fs log].
  - reflexivity.
  - rewrite lookup_insert_ne by (symmetry; apply snoc_ne).
    rewrite (Hf _ (under_app _ _)). reflexivity.
  - rewrite dirname_snoc. apply lookup_insert_eq.
Qed.

Lemma make_output {R : Type} E f data l :
  fresh_dir (tmp_name E) f →
  @makedirs R (tmp_name E ++ ["output"])
    (State (<[input_file E := File data]> (<[tmp_name E := Dir]> f)) l)
  = (Val tt, State (staged E f data) l).
Proof.
  intros Hf. rewrite makedirs_new; cbn [fs log]; [reflexivity|].
  rewrite lookup_insert_ne
    by (unfold input_file; cbn; intros H%app_inv_head; discriminate).
  rewrite lookup_insert_ne by (symmetry; apply snoc_ne).
  apply Hf, under_app.
Qed.

(** ** C3: uploads that are not JSON *)

(** X20.  An upload that decodes as UTF-8 and that the JSON parser rejects
    is answered 400 with the parser's message; the temporary directory has
    been made, and nothing is run. *)
Lemma invalid_json_rejected E rq f u c detail :
  upload rq u c → fresh_dir (tmp_name E) f →
  utf8_valid (file c) = true →
  json_loads E (universal_newlines (file c)) = Some detail →
  log (handle (do_POST E rq) f).2
  = [EvTempDir (tmp_name E); EvSendError 400 ("Invalid JSON file: " +:+ detail)].
Proof.
  intros Hup Hfr Hv Hj. enter Hup.
  rewrite (save_upload E f (file c) _ Hfr). run.
  erewrite json_load_error; [| apply lookup_insert_eq | eassumption | eassumption ].
  run. reflexivity.
Qed.

(** C3 (failing input).  An upload whose bytes are not UTF-8 text is not
    valid JSON, yet it is not answered 400: reading the saved file raises a
    decode error, which the JSON clause does not catch, and the catch-all
    clause answers 500.  No subprocess is run. *)
Theorem undecodable_upload_is_500 E rq f u c :
  upload rq u c → fresh_dir (tmp_name E) f →
  utf8_valid (file c) = false →
  log (handle (do_POST E rq) f).2
  = [EvTempDir (tmp_name E);
     EvPrint ("Error processing request: " +:+ utf8_error E (file c));
     EvTraceback (Exc UnicodeDecodeError (utf8_error E (file c)));
     EvSendError 500 ("Internal server error: " +:+ utf8_error E (file c))].
Proof.
  intros Hup Hfr Hv. enter Hup.
  rewrite (save_upload E f (file c) _ Hfr). run.
  erewrite json_load_undecodable; [| apply lookup_insert_eq | eassumption ].
  run. reflexivity.
Qed.

(** ** C5 and C6: the converter fails or runs too long *)

Ltac stage Hval Hfr :=
  let Hup := fresh "Hup" in let Hv := fresh "Hv" in let Hj := fresh "Hj" in
  destruct Hval as (Hup & Hv & Hj); enter Hup;
  rewrite (save_upload _ _ _ _ Hfr); run;
  erewrite json_load_ok; [| apply lookup_insert_eq | eassumption | eassumption ];
  run; rewrite (make_output _ _ _ _ Hfr); run.


(** C6.  When the converter has not finished after 60 time units, the
    response is 500 with the fixed text "Conversion timeout"; what the
    converter printed is not part of it. *)
Theorem converter_timeout_is_500 E rq f u c p :
  valid_upload E rq u c → fresh_dir (tmp_name E) f →
  converter E f u c = inr p → (60 < runtime p)%N →
  log (handle (do_POST E rq) f).2
  = [EvTempDir (tmp_name E);
     EvRun (convert_cmd (value u) (output_dir E) (input_file E));
     EvSendError 500 "Conversion timeout"].
Proof.
  intros Hval Hfr Hsp Hrt. stage Hval Hfr.
  erewrite subprocess_run_timeout; [| exact Hsp | by apply N.leb_gt]. run.
  reflexivity.
Qed.

(** X21.  The build tool is not installed: running the converter raises
    [FileNotFoundError], and the response is 500 with the hint to install
    [uv]. *)
Lemma converter_not_found E rq f u c e :
  valid_upload E rq u c → fresh_dir (tmp_name E) f →
  converter E f u c = inl e → kind e = FileNotFoundError →
  log (handle (do_POST E rq) f).2
  = [EvTempDir (tmp_name E);
     EvRun (convert_cmd (value u) (output_dir E) (input_file E));
     EvSendError 500 "uv command not found. Please install uv."].
Proof.
  intros Hval Hfr Hsp Hk. stage Hval Hfr.
  erewrite subprocess_run_raises; [| exact Hsp]. run.
  unfold isinstance. rewrite Hk. run. reflexivity.
Qed.

(** ** C1: a successful conversion *)








Lemma path_exists_run {R : Type} p s :
  @path_exists R p s = (Val (bool_decide (is_Some (fs s !! p))), s).
Proof. reflexivity. Qed.



(** ** C2: the temporary directory is removed *)

Lemma rmtree_under (d p : path) (m : gmap path node) :
  under d p → rmtree d m !! p = None.
Proof.
  intros Hu. unfold rmtree. apply map_lookup_filter_None. right.
  intros x _ Hn. apply Hn. exact Hu.
Qed.


(** Whatever the body does and however it ends, by value, by [return] or by
    an exception, nothing is left below the directory. *)
Lemma with_TemporaryDirectory_clean {R A : Type} E (body : path → M R A) s p :
  under (tmp_name E) p →
  fs (with_TemporaryDirectory E body s).2 !! p = None.
Proof.
  intros Hu. unfold with_TemporaryDirectory.
  destruct (body _ _) as [r s']. cbn. apply rmtree_under, Hu.
Qed.

Ltac run_pre :=
  unfold handle, call, mbind, mret;
  cbn -[String.append pretty walk_files rmtree utf8_valid universal_newlines
        startswith falsy zip_name content_disposition str_or convert_cmd
        with_TemporaryDirectory].

(** The checks before the directory is made: each either answers and leaves,
    or goes on. *)
Ltac pre_cases :=
  repeat (run_pre;
          match goal with
          | |- context [header_startswith (content_type ?rq) _] =>
              destruct (content_type rq) eqn:?
          | |- context [startswith ?a ?b] => destruct (startswith a b) eqn:?
          | |- context [form_contains ?a "userId"] =>
              destruct (form_contains a "userId") eqn:?
          | |- context [fields "userId" ?a] =>
              destruct (fields "userId" a) as [|? [|? ?]] eqn:?
          | |- context [form_contains ?a "chatFile"] =>
              destruct (form_contains a "chatFile") eqn:?
          | |- context [fields "chatFile" ?a] =>
              destruct (fields "chatFile" a) as [|? [|? ?]] eqn:?
          | |- context [falsy ?a] => destruct (falsy a) eqn:?
          end).

(** C2.  Once the handler has made its temporary directory, nothing exists
    at or below that directory when the handler is done, whichever way it
    ends: with the archive sent, with an error response after an early
    return, or through an exception, caught or not. *)
Theorem temporary_directory_removed E rq f :
  EvTempDir (tmp_name E) ∈ log (handle (do_POST E rq) f).2 →
  ∀ p, under (tmp_name E) p → fs (handle (do_POST E rq) f).2 !! p = None.
Proof.
  unfold do_POST, form_getitem. destruct (String.eqb (rpath rq) "/convert");
    [| run; intros H; inv_log H].
  pre_cases; run_pre; try (intros H; inv_log H; fail).
  all: match goal with
       | |- context [with_TemporaryDirectory ?E ?b ?s] =>
           pose proof (with_TemporaryDirectory_clean E b s) as Hclean;
           destruct (with_TemporaryDirectory E b s) as [r s1]
       end.
  all: intros _ p Hp; specialize (Hclean p Hp); cbn in Hclean.
  all: destruct r as [[]|[]|e]; run_pre; try exact Hclean.
  all: destruct (is_Exception e); run_pre; exact Hclean.
Qed.

(** ** C10: the identifier is used as it is *)



(** ** The properties on concrete runs *)

Lemma demo_fs_fresh : fresh_dir demo_tmp demo_fs.
Proof.
  intros p [k ->]. unfold demo_fs, demo_tmp. cbn.
  rewrite !lookup_insert_ne by discriminate. apply lookup_empty.
Qed.

Lemma demo_upload user_id b :
  upload (demo_post user_id b) (user_field user_id) (file_field b).
Proof.
  repeat split. exists "multipart/form-data; boundary=----x". split; reflexivity.
Qed.



(** The same upload goes through when the identifier has no separator. *)
Example plain_user_id_is_200 :
  EvSendResponse 200
    ∈ log (handle (do_POST (demo_env uv_present convert_ok) (demo_post "ab" [x5b; x5d]))
             demo_fs).2.
Proof. vm_compute. in_log. Qed.

Lemma temporary_directory_removed_witness :
  let r := handle (do_POST (demo_env uv_present convert_ok) (demo_post "u 1" [x5b; x5d]))
             demo_fs in
  EvTempDir demo_tmp ∈ log r.2 ∧ ∀ p, under demo_tmp p → fs r.2 !! p = None.
Proof.
  intros r.
  assert (H : EvTempDir demo_tmp ∈ log r.2) by (vm_compute; in_log).
  split; [exact H|].
  exact (temporary_directory_removed (demo_env uv_present convert_ok)
           (demo_post "u 1" [x5b; x5d]) demo_fs H).
Defined.

(** The directory is also gone after an early return and after an exception. *)
Example cleaned_after_bad_json :
  let r := handle (do_POST (demo_env uv_present convert_ok) (demo_post "u1" [x5b])) demo_fs in
  log r.2 = [EvTempDir demo_tmp;
             EvSendError 400 "Invalid JSON file: Expecting value: line 1 column 2 (char 1)"] ∧
  fs r.2 = demo_fs.
Proof. split; vm_compute; reflexivity. Qed.

(** C3 (failing input): the upload is the single byte 0xFF. *)
Lemma undecodable_upload_witness :
  let E := demo_env uv_present convert_ok in
  utf8_valid [xff] = false ∧
  log (handle (do_POST E (demo_post "u1" [xff])) demo_fs).2
  = [EvTempDir demo_tmp;
     EvPrint "Error processing request: 'utf-8' codec can't decode byte 0xff in position 0: invalid start byte";
     EvTraceback (Exc UnicodeDecodeError
                    "'utf-8' codec can't decode byte 0xff in position 0: invalid start byte");
     EvSendError 500 "Internal server error: 'utf-8' codec can't decode byte 0xff in position 0: invalid start byte"].
Proof.
  intros E. split; [reflexivity|].
  exact (undecodable_upload_is_500 E (demo_post "u1" [xff]) demo_fs
           (user_field "u1") (file_field [xff])
           (demo_upload "u1" [xff]) demo_fs_fresh eq_refl).
Defined.

(** A truncated document is rejected with the parser's message. *)
Lemma truncated_json_is_400 :
  log (handle (do_POST (demo_env uv_present convert_ok) (demo_post "u1" [x5b])) demo_fs).2
  = [EvTempDir demo_tmp;
     EvSendError 400 "Invalid JSON file: Expecting value: line 1 column 2 (char 1)"].
Proof.
  exact (invalid_json_rejected (demo_env uv_present convert_ok) (demo_post "u1" [x5b])
           demo_fs (user_field "u1") (file_field [x5b]) _
           (demo_upload "u1" [x5b]) demo_fs_fresh eq_refl eq_refl).
Defined.

Lemma demo_multipart fm : multipart_post (Request "/convert" multipart fm).
Proof.
  split; [reflexivity|]. exists "multipart/form-data; boundary=----x". split; reflexivity.
Qed.



Lemma converter_timeout_witness :
  let E := demo_env uv_present convert_hangs in
  log (handle (do_POST E (demo_post "u1" [x5b; x5d])) demo_fs).2
  = [EvTempDir demo_tmp;
     EvRun ["uv"; "run"; "convert_chatgpt.py"; "--userid"; "u1"; "--output-dir";
            "/tmp/tmpk3x0q/output"; "/tmp/tmpk3x0q/conversations.json"];
     EvSendError 500 "Conversion timeout"].
Proof.
  intros E.
  refine (converter_timeout_is_500 E (demo_post "u1" [x5b; x5d]) demo_fs
            (user_field "u1") (file_field [x5b; x5d])
            (Process 3600 0 "still working" EmptyString (staged E demo_fs [x5b; x5d]))
            _ demo_fs_fresh eq_refl _).
  - split; [apply demo_upload | split; reflexivity].
  - reflexivity.
Defined.

Lemma missing_content_type_witness :
  handle (do_POST (demo_env uv_present convert_ok)
            (Request "/convert" None [user_field "u1"; file_field [x5b; x5d]])) demo_fs
  = (inl tt,
     State demo_fs
       [EvPrint "Error processing request: 'NoneType' object has no attribute 'startswith'";
        EvTraceback (no_attribute "NoneType" "startswith");
        EvSendError 500
          "Internal server error: 'NoneType' object has no attribute 'startswith'"]).
Proof.
  exact (missing_content_type_is_500 (demo_env uv_present convert_ok)
           (Request "/convert" None [user_field "u1"; file_field [x5b; x5d]]) demo_fs
           eq_refl eq_refl).
Defined.

(** A header that is there and names another type is answered 400. *)
Lemma json_content_type_is_400 :
  handle (do_POST (demo_env uv_present convert_ok)
            (Request "/convert" (Some "application/json") [])) demo_fs
  = (inl tt, State demo_fs [EvSendError 400 "Expected multipart/form-data"]).
Proof. apply (non_multipart_rejected _ _ _ "application/json"); reflexivity. Defined.



Lemma launcher_refuses_witness :
  let E := demo_env uv_absent convert_ok in
  let r := Launcher.script E ["start_web_server.py"] demo_fs in
  ¬ uv_invocable E demo_fs ∧
  r.1 = 1 ∧
  log r.2 = [EvPrint "ChatGPT to Open-WebUI Converter Web Server";
             EvPrint "=============================================";
             EvRun ["uv"; "--version"];
             EvPrint uv_warning;
             EvPrint "You can install it with: pip install uv";
             EvPrint "
Please fix the above issues and try again."] ∧
  (∀ d u, EvTimer d u ∉ log r.2) ∧
  (∀ port, EvRun (Launcher.server_cmd E port) ∉ log r.2).
Proof.
  intros E r.
  assert (Hn : ¬ uv_invocable E demo_fs) by (intros H; exact H).
  pose proof (launcher_refuses E ["start_web_server.py"] demo_fs (or_intror Hn)) as H.
  cbv zeta in H. destruct H as (_ & Ht & _ & Hs & _).
  repeat split; [exact Hn | exact Ht | exact Hs].
Defined.

(** With the files in place and [uv] answering, the timer is started and
    the server is run. *)
Example launcher_starts :
  let r := Launcher.script (demo_env uv_present convert_ok) ["start_web_server.py"] demo_fs in
  r.1 = 0 ∧
  log r.2 = [EvPrint "ChatGPT to Open-WebUI Converter Web Server";
             EvPrint "=============================================";
             EvRun ["uv"; "--version"];
             EvTimer 2 "http://localhost:3010";
             EvPrint "
Starting web server on port 3010...";
             EvPrint "Access the converter at: http://localhost:3010";
             EvPrint "Press Ctrl+C to stop the server
";
             EvRun ["python3"; "webserver/server.py"; "--port"; "3010"];
             EvPrint "
Server stopped by user."].
Proof. split; vm_compute; reflexivity. Qed.

(** A missing file is reported by name. *)
Example launcher_missing_file :
  let f := delete ["srv"; "app"; "convert_chatgpt.py"] demo_fs in
  let r := Launcher.script (demo_env uv_present convert_ok) ["start_web_server.py"] f in
  r.1 = 1 ∧
  log r.2 = [EvPrint "ChatGPT to Open-WebUI Converter Web Server";
             EvPrint "=============================================";
             EvPrint "Error: Missing required files: convert_chatgpt.py";
             EvPrint "
Please fix the above issues and try again."].
Proof. split; vm_compute; reflexivity. Qed.

(** Identifiers with a quote, a space and a separator.  In the second run
    the converter has made the directory that the separator names. *)
Example odd_user_ids_verbatim :
  EvSendHeader "Content-Disposition"
    ("attachment; filename=" +:+ dquote +:+ "chatgpt_converted_" +:+ "it's me"
     +:+ ".zip" +:+ dquote)
    ∈ log (handle (do_POST (demo_env uv_present convert_ok)
                     (demo_post "it's me" [x5b; x5d])) demo_fs).2 ∧
  EvSendHeader "Content-Disposition"
    ("attachment; filename=" +:+ dquote +:+ "chatgpt_converted_" +:+ "a/b"
     +:+ ".zip" +:+ dquote)
    ∈ log (handle (do_POST (demo_env uv_present convert_ok_slash)
                     (demo_post "a/b" [x5b; x5d])) demo_fs).2.
Proof. split; vm_compute; in_log. Qed.

(** * Further properties of the handlers *)

(** ** Other ways a conversion ends *)

(** X1.  The converter exits 0 in time and leaves no [chatgpt] directory:
    the response is 500 "No output files generated", and no archive is
    written. *)
Theorem no_output_is_500 E rq f u c p :
  valid_upload E rq u c → fresh_dir (tmp_name E) f →
  converter E f u c = inr p → (runtime p <=? 60)%N = true → returncode p = 0 →
  fs_after p !! chatgpt_dir E = None →
  log (handle (do_POST E rq) f).2
  = [EvTempDir (tmp_name E);
     EvRun (convert_cmd (value u) (output_dir E) (input_file E));
     EvSendError 500 "No output files generated"].
Proof.
  intros Hval Hfr Hsp Hrt Hrc Hout. stage Hval Hfr.
  erewrite subprocess_run_exited; [| exact Hsp | exact Hrt]. run.
  rewrite Hrc. run. unfold chatgpt_dir, output_dir in Hout.
  rewrite path_exists_run. run.
  rewrite bool_decide_eq_false_2 by (rewrite Hout; apply is_Some_None). run.
  reflexivity.
Qed.

(** X2.  Starting the converter raises an exception that is neither a
    timeout nor a missing program (a permission error, say): the catch-all
    clause reports it, with its text, as a 500. *)
Theorem converter_error_is_500 E rq f u c e :
  valid_upload E rq u c → fresh_dir (tmp_name E) f →
  converter E f u c = inl e →
  kind e ≠ TimeoutExpired → kind e ≠ FileNotFoundError → kind e ≠ KeyboardInterrupt →
  handle (do_POST E rq) f
  = (inl tt,
     State (rmtree (tmp_name E) (staged E f (file c)))
       [EvTempDir (tmp_name E);
        EvRun (convert_cmd (value u) (output_dir E) (input_file E));
        EvPrint ("Error processing request: " +:+ msg e);
        EvTraceback e;
        EvSendError 500 ("Internal server error: " +:+ msg e)]).
Proof.
  intros Hval Hfr Hsp H1 H2 H3. stage Hval Hfr.
  erewrite subprocess_run_raises; [| exact Hsp]. run.
  destruct e as [k m]; cbn in *. destruct k; try congruence; reflexivity.
Qed.

(** X3.  A field name given twice: [form[name]] is then a list, reading
    [.value] or [.filename] off it raises, and the response is 500; the
    temporary directory is not made and nothing is run. *)
Theorem repeated_field_is_500 E rq f :
  multipart_post rq →
  (∀ a b l, fields "userId" (form rq) = a :: b :: l →
   handle (do_POST E rq) f
   = (inl tt,
      State f [EvPrint "Error processing request: 'list' object has no attribute 'value'";
               EvTraceback (no_attribute "list" "value");
               EvSendError 500
                 "Internal server error: 'list' object has no attribute 'value'"])) ∧
  (∀ u a b l, fields "userId" (form rq) = [u] →
              fields "chatFile" (form rq) = a :: b :: l →
   handle (do_POST E rq) f
   = (inl tt,
      State f [EvPrint "Error processing request: 'list' object has no attribute 'filename'";
               EvTraceback (no_attribute "list" "filename");
               EvSendError 500
                 "Internal server error: 'list' object has no attribute 'filename'"])).
Proof.
  intros (Hp & ct & Hc & Hs).
  assert (Hcont : ∀ key x y l, fields key (form rq) = x :: y :: l →
                               form_contains (form rq) key = true).
  { intros key x y l H. unfold form_contains. apply existsb_exists. exists x.
    assert (Hin : In x (fields key (form rq))) by (rewrite H; left; reflexivity).
    unfold fields in Hin. apply filter_In in Hin. exact Hin. }
  split.
  - intros a b l Hu. unfold do_POST. rewrite Hp, Hc. run. rewrite Hs. run.
    rewrite (Hcont _ _ _ _ Hu). run. unfold form_getitem. rewrite Hu. run.
    reflexivity.
  - intros u a b l Hu Hf. unfold do_POST. rewrite Hp, Hc. run. rewrite Hs. run.
    rewrite (contains_of_fields _ _ _ Hu). run.
    unfold form_getitem. rewrite Hu. run.
    rewrite (Hcont _ _ _ _ Hf). run. rewrite Hf. run. reflexivity.
Qed.





(** ** What a request leaves on the file system *)

Section Keeps.
Context {R : Type} (P : gmap path node → Prop).

Lemma keeps_ret {A : Type} (a : A) : keeps P (@ret R A a).
Proof. intros s H. exact H. Qed.

Lemma keeps_return {A : Type} (r : R) : keeps P (@return_ R A r).
Proof. intros s H. exact H. Qed.

Lemma keeps_raise {A : Type} e : keeps P (@raise R A e).
Proof. intros s H. exact H. Qed.

Lemma keeps_emit e : keeps P (@emit R e).
Proof. intros s H. exact H. Qed.

Lemma keeps_get_fs : keeps P (@get_fs R).
Proof. intros s H. exact H. Qed.

Lemma keeps_bind {A B : Type} (m : M R A) (k : A → M R B) :
  keeps P m → (∀ a, keeps P (k a)) → keeps P (m ≫= k).
Proof.
  intros Hm Hk s H. specialize (Hm s H). unfold mbind, M_bind, bind.
  destruct (m s) as [[a|r|e] s']; cbn in *; try exact Hm. apply Hk, Hm.
Qed.

Lemma keeps_when (c : bool) (body : M R unit) : keeps P body → keeps P (when_ c body).
Proof. intros Hb. destruct c; [exact Hb | apply keeps_ret]. Qed.

Lemma keeps_try_except {A : Type} (m : M R A) h :
  keeps P m → (∀ e k, h e = Some k → keeps P k) → keeps P (try_except m h).
Proof.
  intros Hm Hh s H. specialize (Hm s H). unfold try_except.
  destruct (m s) as [[a|r|e] s']; cbn in *; try exact Hm.
  destruct (h e) as [k|] eqn:He; [| exact Hm]. exact (Hh e k He s' Hm).
Qed.

Lemma keeps_read_bytes p : keeps P (@read_bytes R p).
Proof.
  unfold read_bytes. apply keeps_bind; [apply keeps_get_fs|]. intros g.
  destruct (g !! p) as [[|b]|]; first [apply keeps_ret | apply keeps_raise].
Qed.

Lemma keeps_read_text E p : keeps P (@read_text R E p).
Proof.
  unfold read_text. apply keeps_bind; [apply keeps_read_bytes|]. intros b.
  destruct (utf8_valid b); first [apply keeps_ret | apply keeps_raise].
Qed.

Lemma keeps_json_load E p : keeps P (@json_load R E p).
Proof.
  unfold json_load. apply keeps_bind; [apply keeps_read_text|]. intros t.
  destruct (json_loads E t); first [apply keeps_ret | apply keeps_raise].
Qed.

Lemma keeps_path_exists p : keeps P (@path_exists R p).
Proof. intros s H. exact H. Qed.
End Keeps.

(** Writing below a directory keeps the rest as it is. *)
Section Outside.
Context {R : Type} (d : path) (f : gmap path node).

Lemma same_outside_insert g p x :
  under d p → same_outside d f g → same_outside d f (<[p := x]> g).
Proof.
  intros Hp Hg q Hq. rewrite lookup_insert_ne; [apply Hg, Hq | by intros ->].
Qed.

Lemma keeps_write_bytes p data :
  under d p → keeps (same_outside d f) (@write_bytes R p data).
Proof.
  intros Hp s H. unfold write_bytes. run.
  destruct (fs s !! p) as [[|b]|]; cbn; try exact H;
    (destruct (fs s !! dirname p) as [[|b']|]; cbn; try exact H;
     apply same_outside_insert; assumption).
Qed.


Lemma keeps_write_zip E zp top :
  under d zp → keeps (same_outside d f) (@write_zip R E zp top).
Proof.
  intros Hp. unfold write_zip.
  apply keeps_bind; [apply keeps_write_bytes, Hp|]. intros _.
  apply keeps_bind; [apply keeps_get_fs|]. intros g.
  apply keeps_bind; [apply keeps_write_bytes, Hp|]. intros _. apply keeps_emit.
Qed.

End Outside.


(** However the body ends, the directory is fresh again afterwards. *)
Lemma with_TemporaryDirectory_fresh {R A : Type} E (body : path → M R A) :
  keeps (fresh_dir (tmp_name E)) (with_TemporaryDirectory E body).
Proof.
  intros s _ p Hp. apply with_TemporaryDirectory_clean, Hp.
Qed.

Ltac keeps_step :=
  first
    [ apply keeps_ret | apply keeps_return | apply keeps_raise | apply keeps_emit
    | apply keeps_get_fs | apply keeps_path_exists
    | apply keeps_json_load | apply keeps_read_bytes | apply keeps_read_text
    | apply keeps_when
    | apply keeps_bind; [| intros ?]
    | apply keeps_try_except; [| intros ? ? ?] ].

Ltac keeps_handler :=
  repeat match goal with
         | H : (if ?c then _ else _) = Some _ |- _ => destruct c
         | H : Some _ = Some _ |- _ => injection H as <-
         | H : None = Some _ |- _ => discriminate H
         end.

(** The checks and calls of [do_POST] around the temporary directory, for a
    property that the block itself keeps. *)
Lemma keeps_do_POST (P : gmap path node → Prop) E rq :
  (∀ body : path → M unit unit,
     (∀ Q : gmap path node → Prop,
        (∀ p data, under (tmp_name E) p → keeps Q (@write_bytes unit p data)) →
        (∀ p, under (tmp_name E) p → keeps Q (@makedirs unit p)) →
        (∀ cmd t, keeps Q (@subprocess_run unit E cmd t)) →
        keeps Q (body (tmp_name E))) →
     keeps P (with_TemporaryDirectory E body)) →
  keeps P (do_POST E rq).
Proof.
  intros Hwith. unfold do_POST.
  destruct (String.eqb (rpath rq) "/convert"); [| apply keeps_emit].
  apply keeps_try_except.
  2: { intros e k Hk. keeps_handler. unfold print, send_error. repeat keeps_step. }
  unfold send_error, header_startswith, form_getitem.
  apply keeps_bind; [destruct (content_type rq); keeps_step | intros multipart].
  apply keeps_bind; [repeat keeps_step | intros _].
  apply keeps_bind; [repeat keeps_step | intros _].
  apply keeps_bind;
    [destruct (fields "userId" (form rq)) as [|? [|? ?]]; keeps_step | intros uid_item].
  apply keeps_bind; [destruct uid_item; keeps_step | intros user_id].
  apply keeps_bind; [repeat keeps_step | intros _].
  apply keeps_bind;
    [destruct (fields "chatFile" (form rq)) as [|? [|? ?]]; keeps_step | intros file_item].
  apply keeps_bind; [destruct file_item; keeps_step | intros fname].
  apply keeps_bind; [repeat keeps_step | intros _].
  apply Hwith. intros Q Hw Hmk Hrun.
  assert (Hin : ∀ n, under (tmp_name E) (path_join (tmp_name E) n))
    by (intros n; apply under_app).
  assert (Hin2 : ∀ n m, under (tmp_name E) (path_join (path_join (tmp_name E) n) m)).
  { intros n m. unfold path_join. rewrite <- app_assoc. apply under_app. }
  unfold send_error, send_response, send_header, end_headers, wfile_write, write_zip.
  apply keeps_bind; [destruct file_item; keeps_step | intros data].
  apply keeps_bind; [apply Hw, Hin | intros _].
  apply keeps_bind.
  { apply keeps_try_except; [apply keeps_json_load|].
    intros e k Hk. keeps_handler. repeat keeps_step. }
  intros _. apply keeps_bind; [apply Hmk, Hin | intros _].
  apply keeps_bind.
  { apply keeps_try_except.
    - apply keeps_bind; [apply Hrun | intros result]. repeat keeps_step.
    - intros e k Hk. keeps_handler; repeat keeps_step. }
  intros _. apply keeps_bind; [apply keeps_path_exists | intros present].
  apply keeps_bind; [repeat keeps_step | intros _].
  apply keeps_bind.
  { apply keeps_bind; [apply Hw, Hin | intros _].
    apply keeps_bind; [apply keeps_get_fs | intros g].
    apply keeps_bind; [apply Hw, Hin | intros _]. apply keeps_emit. }
  intros _. repeat keeps_step.
Qed.

(** X6.  Handling a POST re-establishes what it needs of the file system:
    if nothing lies at or below the temporary directory's name before the
    request, nothing does after it.  This holds for every request and
    every converter, so requests handled one after the other each find the
    name free. *)
Theorem do_POST_keeps_fresh E rq f :
  fresh_dir (tmp_name E) f →
  fresh_dir (tmp_name E) (fs (handle (do_POST E rq) f).2).
Proof.
  intros Hfr.
  assert (H : keeps (fresh_dir (tmp_name E)) (do_POST E rq)).
  { apply keeps_do_POST. intros body _. apply with_TemporaryDirectory_fresh. }
  specialize (H (State f []) Hfr). unfold handle, call.
  destruct (do_POST E rq (State f [])) as [[[]|[]|e] s]; exact H.
Qed.


(** X8.  A GET never changes the file system and never runs anything. *)
Theorem do_GET_reads_only E rq f :
  fs (handle (do_GET E rq) f).2 = f ∧ runs (log (handle (do_GET E rq) f).2) = [].
Proof.
  unfold do_GET, read_text, read_bytes.
  destruct (_ || _); [| run; split; reflexivity].
  run. destruct (f !! index_html E) as [[|b]|] eqn:Hi; run; try (split; reflexivity).
  destruct (utf8_valid b); run; split; reflexivity.
Qed.

(** ** One answer and at most one run per request *)

Ltac explore_fs :=
  repeat (run; rewrite ?lookup_insert_eq; run;
          match goal with
          | |- context [when_ (negb ?b) _ _] => destruct b eqn:?
          | |- context [match ?x with _ => _ end] =>
              lazymatch x with
              | context [match _ with _ => _ end] => fail
              | _ => destruct x eqn:?
              end
          end).

Lemma do_POST_shape E rq f :
  let r := handle (do_POST E rq) f in
  match r.1 with
  | inl _ =>
      (∃ c m, responses (log r.2) = [EvSendError c m] ∧ (c = 400 ∨ c = 404 ∨ c = 500)) ∨
      (∃ cd cl b,
         responses (log r.2)
         = [EvSendResponse 200; EvSendHeader "Content-Type" "application/zip";
            EvSendHeader "Content-Disposition" cd; EvSendHeader "Content-Length" cl;
            EvEndHeaders; EvWrite b])
  | inr e => kind e = KeyboardInterrupt ∧ responses (log r.2) = []
  end ∧
  (runs (log r.2) = [] ∨
   ∃ u c, valid_upload E rq u c ∧
          runs (log r.2) = [convert_cmd (value u) (output_dir E) (input_file E)]).
Proof.
  intros r. subst r. unfold do_POST, form_getitem.
  destruct (String.eqb (rpath rq) "/convert") eqn:Hpath;
    [| run; split; [left; do 2 eexists; split; [reflexivity | tauto] | left; reflexivity]].
  apply String.eqb_eq in Hpath.
  pre_cases; run_pre;
    try (split; [left; do 2 eexists; split; [reflexivity | tauto] | left; reflexivity]).
  unfold write_zip, write_bytes, json_load, read_text, read_bytes, makedirs,
    subprocess_run, path_exists.
  explore_fs; run; rewrite ?lookup_insert_eq; run.
  all: split;
    [ first [ left; do 2 eexists; split; [reflexivity | tauto]
            | right; do 3 eexists; reflexivity
            | split; [assumption | reflexivity]
            | split; [| reflexivity];
              match goal with e : exn |- _ => destruct e as [[] ?]; cbn in *; congruence end ]
    | first [ left; reflexivity
            | right; do 2 eexists; split; [| reflexivity];
              unfold valid_upload, upload, multipart_post; eauto 10 ] ].
Qed.


(** X10.  A POST runs at most one subprocess, and runs it only for an upload
    that has passed every check: the request is multipart, both fields are
    there once, the file has a name, and its bytes decode and parse. *)
Theorem do_POST_runs_after_validation E rq f :
  let l := log (handle (do_POST E rq) f).2 in
  runs l = [] ∨
  ∃ u c, valid_upload E rq u c ∧
         runs l = [convert_cmd (value u) (output_dir E) (input_file E)].
Proof. intros l. exact (proj2 (do_POST_shape E rq f)). Qed.

(** ** The launcher when its checks pass *)

(** X11.  [check_dependencies] answers [True] exactly when no required file
    is missing and the version check of [uv] succeeds. *)
Theorem check_dependencies_true_iff E f :
  (call (Launcher.check_dependencies E) (State f [])).1 = inl true ↔
  Launcher.missing E f = [] ∧ uv_invocable E f.
Proof.
  unfold Launcher.check_dependencies, Launcher.run_checked, subprocess_run, uv_invocable.
  run. destruct (decide (Launcher.missing E f = [])) as [Hm | Hm].
  - rewrite bool_decide_eq_true_2 by exact Hm. run.
    destruct (spawn E ["uv"; "--version"] f) as [e | p]; run.
    + destruct e as [[] m]; run; split; (discriminate || tauto).
    + destruct (returncode p =? 0) eqn:Hrc; run.
      * apply Z.eqb_eq in Hrc. tauto.
      * apply Z.eqb_neq in Hrc. split; [discriminate | tauto].
  - rewrite bool_decide_eq_false_2 by exact Hm. run. split; [discriminate | tauto].
Qed.

(** X12.  With a missing file the version check is not even run: the
    launcher prints the missing names, in the order of the list of required
    files, and exits 1 with the file system untouched. *)
Theorem missing_files_stop_first E argv f :
  Launcher.missing E f ≠ [] →
  Launcher.script E argv f
  = (1, State f [EvPrint "ChatGPT to Open-WebUI Converter Web Server";
                 EvPrint "=============================================";
                 EvPrint ("Error: Missing required files: "
                          +:+ join ", " (Launcher.missing E f));
                 EvPrint "
Please fix the above issues and try again."]).
Proof.
  intros Hm. unfold Launcher.script, Launcher.main, Launcher.invoke,
    Launcher.check_dependencies.
  run. rewrite bool_decide_eq_false_2 by exact Hm. run. reflexivity.
Qed.

Ltac launch Hm Huv Hrc :=
  unfold Launcher.script, Launcher.main, Launcher.invoke,
    Launcher.check_dependencies, Launcher.run_checked, subprocess_run;
  run; rewrite bool_decide_eq_true_2 by exact Hm; run;
  rewrite Huv; run; rewrite Hrc; run.

(** X13.  An argument that is not an integer: the launcher says so and
    exits 1; no timer is started and no server is run. *)
Theorem invalid_port_stops E f a0 a1 rest pu :
  Launcher.missing E f = [] →
  spawn E ["uv"; "--version"] f = inr pu → returncode pu = 0 →
  int_of_str E a1 = None →
  Launcher.script E (a0 :: a1 :: rest) f
  = (1, State (fs_after pu)
          [EvPrint "ChatGPT to Open-WebUI Converter Web Server";
           EvPrint "=============================================";
           EvRun ["uv"; "--version"];
           EvPrint ("Invalid port number: " +:+ a1)]).
Proof.
  intros Hm Huv Hrc Hint. launch Hm Huv Hrc. rewrite Hint. run. reflexivity.
Qed.

(** X14.  When the checks pass and the port is an integer, whichever, the
    timer is started for the address with that port and then the server is
    run with that same port.  The launcher exits 0 when the server ends, with
    any return code, and when it is interrupted; it exits 1, with the text of
    the error, when running the server raises another exception. *)
Theorem launcher_serves E argv f pu port :
  Launcher.missing E f = [] →
  spawn E ["uv"; "--version"] f = inr pu → returncode pu = 0 →
  port_arg E argv = Some port →
  (∀ ps, spawn E (Launcher.server_cmd E port) (fs_after pu) = inr ps →
         Launcher.script E argv f = (0, State (fs_after ps) (launch_log E port))) ∧
  (∀ e, spawn E (Launcher.server_cmd E port) (fs_after pu) = inl e →
        kind e = KeyboardInterrupt →
        Launcher.script E argv f
        = (0, State (fs_after pu)
                (launch_log E port ++ [EvPrint "
Server stopped by user."]))) ∧
  (∀ e, spawn E (Launcher.server_cmd E port) (fs_after pu) = inl e →
        kind e ≠ KeyboardInterrupt →
        Launcher.script E argv f
        = (1, State (fs_after pu)
                (launch_log E port ++ [EvPrint ("Error starting server: " +:+ msg e)]))).
Proof.
  intros Hm Huv Hrc Hport. unfold port_arg in Hport.
  repeat split.
  - intros ps Hs.
    destruct argv as [|a0 [|a1 rest]];
      [injection Hport as <- | injection Hport as <- |];
      launch Hm Huv Hrc; rewrite ?Hport; run; unfold Launcher.server_cmd in *; rewrite Hs; run; reflexivity.
  - intros e Hs Hk.
    destruct argv as [|a0 [|a1 rest]];
      [injection Hport as <- | injection Hport as <- |];
      launch Hm Huv Hrc; rewrite ?Hport; run; unfold Launcher.server_cmd in *; rewrite Hs; run;
      unfold isinstance; rewrite Hk; run; reflexivity.
  - intros e Hs Hk.
    destruct argv as [|a0 [|a1 rest]];
      [injection Hport as <- | injection Hport as <- |];
      launch Hm Huv Hrc; rewrite ?Hport; run; unfold Launcher.server_cmd in *; rewrite Hs; run;
      destruct e as [[] m]; cbn in *; try congruence; reflexivity.
Qed.

(** X15.  [open_browser] lets no exception but the interrupt out.  It
    reports the browser as opened whenever [webbrowser.open] returns, also
    when that answers [False]; when it raises, the two lines that ask the
    user to open the address are printed instead. *)
Theorem open_browser_reports wopen url s :
  (∀ b, wopen url = inr b →
        Launcher.open_browser wopen url s
        = (Val tt, State (fs s) (log s ++ [EvPrint ("Opened browser at " +:+ url)]))) ∧
  (∀ e, wopen url = inl e → kind e ≠ KeyboardInterrupt →
        Launcher.open_browser wopen url s
        = (Val tt,
           State (fs s)
             (log s ++ [EvPrint ("Could not open browser automatically: " +:+ msg e);
                        EvPrint ("Please manually open " +:+ url +:+ " in your browser.")]))).
Proof.
  split.
  - intros b H. unfold Launcher.open_browser. run. rewrite H. run. reflexivity.
  - intros e H Hk. unfold Launcher.open_browser. run. rewrite H. run.
    destruct e as [[] m]; cbn in *; try congruence;
      unfold print; run; rewrite <- app_assoc; reflexivity.
Qed.

(** ** Names in the archive, and the bytes of the page *)

Lemma split_slash_nonempty s : split_slash s ≠ [].
Proof.
  destruct s as [|c s]; cbn; [discriminate|].
  destruct (Ascii.eqb c "/"); [discriminate|]. destruct (split_slash s); discriminate.
Qed.

(** Joining the pieces of a name with the separator gives the name back. *)
Lemma join_split_slash s : join "/" (split_slash s) = s.
Proof.
  induction s as [|c s IH]; [reflexivity|]. cbn.
  destruct (Ascii.eqb c "/") eqn:Hc.
  - apply Ascii.eqb_eq in Hc. subst c.
    pose proof (split_slash_nonempty s) as Hne.
    unfold join in *. cbn. destruct (split_slash s) as [|h t]; [congruence|].
    cbn in *. rewrite IH. reflexivity.
  - pose proof (split_slash_nonempty s) as Hne.
    unfold join in *. destruct (split_slash s) as [|h t]; [congruence|].
    cbn in *. destruct t; cbn in *; rewrite <- IH; reflexivity.
Qed.


Lemma in_range_13 b : in_range 13 13 b = true → b = x0d.
Proof. destruct b; intros H; try reflexivity; discriminate H. Qed.

Lemma universal_newlines_no_cr (b : bytes) :
  (∀ x, x ∈ b → x ≠ x0d) → universal_newlines b = b.
Proof.
  induction b as [|x b IH]; intros H; [reflexivity|]. cbn.
  destruct (in_range 13 13 x) eqn:Hx.
  - apply in_range_13 in Hx. exfalso. apply (H x); [left | exact Hx].
  - f_equal. apply IH. intros y Hy. apply H. right. exact Hy.
Qed.

(** The text read from a file has no carriage return left in it. *)
Lemma universal_newlines_clean (b : bytes) : ∀ x, x ∈ universal_newlines b → x ≠ x0d.
Proof.
  induction b as [b IH] using (induction_ltof1 _ (@length byte)). unfold ltof in IH.
  destruct b as [|x b]; cbn; [intros y Hy; inversion Hy|].
  destruct (in_range 13 13 x) eqn:Hx.
  - intros y Hy. apply elem_of_cons in Hy as [-> | Hy]; [discriminate|].
    destruct b as [|x' b']; [inversion Hy|].
    destruct (in_range 10 10 x'); (eapply IH; [| exact Hy]); cbn; lia.
  - intros y Hy. apply elem_of_cons in Hy as [-> | Hy].
    + intros ->. discriminate Hx.
    + eapply IH; [| exact Hy]. cbn. lia.
Qed.

(** X17.  The page is served byte for byte when the file is UTF-8 text with
    no carriage return in it. *)
Theorem do_GET_serves_file_bytes E rq f b :
  rpath rq = "/" ∨ rpath rq = "/webserver/index.html" →
  f !! index_html E = Some (File b) → utf8_valid b = true →
  (∀ x, x ∈ b → x ≠ x0d) →
  handle (do_GET E rq) f
  = (inl tt,
     State f [EvSendResponse 200;
              EvSendHeader "Content-type" "text/html; charset=utf-8";
              EvEndHeaders;
              EvWrite b]).
Proof.
  intros Hp Hb Hv Hcr.
  assert (Hc : (String.eqb (rpath rq) "/" || String.eqb (rpath rq) "/webserver/index.html"
                || String.eqb (rpath rq) "/") = true)
    by (destruct Hp as [-> | ->]; reflexivity).
  unfold do_GET, index_html in *. rewrite Hc.
  unfold read_text, read_bytes. run. rewrite Hb. run. rewrite Hv. run.
  unfold encode_utf8. rewrite (universal_newlines_no_cr b Hcr). reflexivity.
Qed.

(** X18.  Whatever the page file holds, no carriage return is ever sent in
    the body of the page: the file is read as text, and line ends come out
    as line feeds. *)
Theorem do_GET_body_has_no_cr E rq f body :
  EvWrite body ∈ log (handle (do_GET E rq) f).2 → ∀ x, x ∈ body → x ≠ x0d.
Proof.
  unfold do_GET, read_text, read_bytes.
  destruct (_ || _); [| run; intros H; inv_log H].
  run. destruct (f !! index_html E) as [[|b]|] eqn:Hi; run;
    try (intros H; inv_log H; fail).
  destruct (utf8_valid b); run; intros H; inv_log H.
  apply universal_newlines_clean.
Qed.

(** ** The further properties on concrete runs *)

Lemma demo_valid user_id uv conv :
  valid_upload (demo_env uv conv) (demo_post user_id [x5b; x5d])
    (user_field user_id) (file_field [x5b; x5d]).
Proof. split; [apply demo_upload | split; reflexivity]. Qed.

Lemma plain_valid user_id conv :
  valid_upload (plain_env conv) (demo_post user_id [x5b; x5d])
    (user_field user_id) (file_field [x5b; x5d]).
Proof. split; [apply demo_upload | split; reflexivity]. Qed.

Lemma no_output_witness :
  log (handle (do_POST (demo_env uv_present uv_present) (demo_post "u1" [x5b; x5d]))
         demo_fs).2
  = [EvTempDir demo_tmp;
     EvRun ["uv"; "run"; "convert_chatgpt.py"; "--userid"; "u1"; "--output-dir";
            "/tmp/tmpk3x0q/output"; "/tmp/tmpk3x0q/conversations.json"];
     EvSendError 500 "No output files generated"].
Proof.
  refine (no_output_is_500 (demo_env uv_present uv_present) (demo_post "u1" [x5b; x5d])
            demo_fs (user_field "u1") (file_field [x5b; x5d])
            (Process 1 0 "uv 0.4.18" EmptyString
               (staged (demo_env uv_present uv_present) demo_fs [x5b; x5d]))
            (demo_valid _ _ _) demo_fs_fresh eq_refl eq_refl eq_refl _).
  vm_compute. reflexivity.
Defined.

Lemma converter_error_witness :
  log (handle (do_POST (demo_env uv_present convert_denied) (demo_post "u1" [x5b; x5d]))
         demo_fs).2
  = [EvTempDir demo_tmp;
     EvRun ["uv"; "run"; "convert_chatgpt.py"; "--userid"; "u1"; "--output-dir";
            "/tmp/tmpk3x0q/output"; "/tmp/tmpk3x0q/conversations.json"];
     EvPrint "Error processing request: [Errno 13] Permission denied: 'uv'";
     EvTraceback (Exc PermissionError "[Errno 13] Permission denied: 'uv'");
     EvSendError 500 "Internal server error: [Errno 13] Permission denied: 'uv'"].
Proof.
  rewrite (converter_error_is_500 (demo_env uv_present convert_denied)
             (demo_post "u1" [x5b; x5d]) demo_fs (user_field "u1") (file_field [x5b; x5d])
             (Exc PermissionError "[Errno 13] Permission denied: 'uv'")
             (demo_valid _ _ _) demo_fs_fresh eq_refl);
    [reflexivity | discriminate | discriminate | discriminate].
Defined.

Lemma converter_not_found_witness :
  log (handle (do_POST (demo_env uv_present uv_absent) (demo_post "u1" [x5b; x5d]))
         demo_fs).2
  = [EvTempDir demo_tmp;
     EvRun ["uv"; "run"; "convert_chatgpt.py"; "--userid"; "u1"; "--output-dir";
            "/tmp/tmpk3x0q/output"; "/tmp/tmpk3x0q/conversations.json"];
     EvSendError 500 "uv command not found. Please install uv."].
Proof.
  exact (converter_not_found (demo_env uv_present uv_absent) (demo_post "u1" [x5b; x5d])
           demo_fs (user_field "u1") (file_field [x5b; x5d])
           (Exc FileNotFoundError "[Errno 2] No such file or directory: 'uv'")
           (demo_valid _ _ _) demo_fs_fresh eq_refl eq_refl).
Defined.

Lemma repeated_field_witness :
  let E := demo_env uv_present convert_ok in
  handle (do_POST E (Request "/convert" multipart
                       [user_field "u1"; user_field "u2"; file_field [x5b; x5d]])) demo_fs
  = (inl tt,
     State demo_fs
       [EvPrint "Error processing request: 'list' object has no attribute 'value'";
        EvTraceback (no_attribute "list" "value");
        EvSendError 500 "Internal server error: 'list' object has no attribute 'value'"]) ∧
  handle (do_POST E (Request "/convert" multipart
                       [user_field "u1"; file_field [x5b; x5d]; file_field [x7b; x7d]]))
    demo_fs
  = (inl tt,
     State demo_fs
       [EvPrint "Error processing request: 'list' object has no attribute 'filename'";
        EvTraceback (no_attribute "list" "filename");
        EvSendError 500 "Internal server error: 'list' object has no attribute 'filename'"]).
Proof.
  intros E. split.
  - apply (proj1 (repeated_field_is_500 E
                    (Request "/convert" multipart
                       [user_field "u1"; user_field "u2"; file_field [x5b; x5d]])
                    demo_fs (demo_multipart _))
             (user_field "u1") (user_field "u2") []).
    reflexivity.
  - apply (proj2 (repeated_field_is_500 E
                    (Request "/convert" multipart
                       [user_field "u1"; file_field [x5b; x5d]; file_field [x7b; x7d]])
                    demo_fs (demo_multipart _))
             (user_field "u1") (file_field [x5b; x5d]) (file_field [x7b; x7d]) []);
      reflexivity.
Defined.




Lemma do_POST_keeps_fresh_witness :
  fresh_dir demo_tmp
    (fs (handle (do_POST (demo_env uv_present convert_ok) (demo_post "a/b" [x5b; x5d]))
           demo_fs).2).
Proof.
  exact (do_POST_keeps_fresh (demo_env uv_present convert_ok) (demo_post "a/b" [x5b; x5d])
           demo_fs demo_fs_fresh).
Defined.



Lemma missing_files_stop_first_witness :
  Launcher.script (demo_env uv_present convert_ok) ["start_web_server.py"]
    (delete ["srv"; "app"; "webserver"; "index.html"]
       (delete ["srv"; "app"; "convert_chatgpt.py"] demo_fs))
  = (1, State (delete ["srv"; "app"; "webserver"; "index.html"]
                 (delete ["srv"; "app"; "convert_chatgpt.py"] demo_fs))
          [EvPrint "ChatGPT to Open-WebUI Converter Web Server";
           EvPrint "=============================================";
           EvPrint "Error: Missing required files: webserver/index.html, convert_chatgpt.py";
           EvPrint "
Please fix the above issues and try again."]).
Proof.
  rewrite (missing_files_stop_first (demo_env uv_present convert_ok)
             ["start_web_server.py"]
             (delete ["srv"; "app"; "webserver"; "index.html"]
                (delete ["srv"; "app"; "convert_chatgpt.py"] demo_fs)));
    [vm_compute; reflexivity | vm_compute; discriminate].
Defined.

Lemma invalid_port_witness :
  Launcher.script (demo_env uv_present convert_ok) ["start_web_server.py"; "80a"] demo_fs
  = (1, State demo_fs
          [EvPrint "ChatGPT to Open-WebUI Converter Web Server";
           EvPrint "=============================================";
           EvRun ["uv"; "--version"];
           EvPrint "Invalid port number: 80a"]).
Proof.
  exact (invalid_port_stops (demo_env uv_present convert_ok) demo_fs
           "start_web_server.py" "80a" [] (Process 1 0 "uv 0.4.18" EmptyString demo_fs)
           eq_refl eq_refl eq_refl eq_refl).
Defined.

Lemma launcher_serves_witness :
  Launcher.script (demo_env uv_present convert_ok) ["start_web_server.py"] demo_fs
  = (0, State demo_fs
          (launch_log (demo_env uv_present convert_ok) 3010
           ++ [EvPrint "
Server stopped by user."])).
Proof.
  exact (proj1 (proj2 (launcher_serves (demo_env uv_present convert_ok)
                         ["start_web_server.py"] demo_fs
                         (Process 1 0 "uv 0.4.18" EmptyString demo_fs) 3010
                         eq_refl eq_refl eq_refl eq_refl))
           (Exc KeyboardInterrupt EmptyString) eq_refl eq_refl).
Defined.


Lemma do_GET_serves_file_bytes_witness :
  let E := demo_env uv_present convert_ok in
  handle (do_GET E (Request "/" None []))
    (<[index_html E := File [x3c; x70; x3e; x0a]]> demo_fs)
  = (inl tt,
     State (<[index_html E := File [x3c; x70; x3e; x0a]]> demo_fs)
       [EvSendResponse 200;
        EvSendHeader "Content-type" "text/html; charset=utf-8";
        EvEndHeaders;
        EvWrite [x3c; x70; x3e; x0a]]).
Proof.
  intros E.
  apply (do_GET_serves_file_bytes E (Request "/" None []) _ [x3c; x70; x3e; x0a]).
  - left. reflexivity.
  - apply lookup_insert_eq.
  - reflexivity.
  - intros x Hx.
    repeat (apply elem_of_cons in Hx as [-> | Hx]; [discriminate|]).
    apply elem_of_nil in Hx. contradiction.
Defined.

Lemma do_GET_body_has_no_cr_witness :
  let r := handle (do_GET (demo_env uv_present convert_ok) (Request "/" None [])) demo_fs in
  EvWrite [x3c; x70; x3e; x0a] ∈ log r.2 ∧ ∀ x, x ∈ [x3c; x70; x3e; x0a] → x ≠ x0d.
Proof.
  intros r.
  assert (H : EvWrite [x3c; x70; x3e; x0a] ∈ log r.2) by (vm_compute; in_log).
  split; [exact H|].
  exact (do_GET_body_has_no_cr (demo_env uv_present convert_ok) (Request "/" None [])
           demo_fs [x3c; x70; x3e; x0a] H).
Defined.

Lemma open_browser_witness :
  Launcher.open_browser (λ _, inr false) "http://localhost:3010" (State ∅ [])
  = (Val tt, State ∅ [EvPrint "Opened browser at http://localhost:3010"]).
Proof.
  exact (proj1 (open_browser_reports (λ _, inr false) "http://localhost:3010" (State ∅ []))
           false eq_refl).
Defined.
